(** * CareerSenseAI: the scoring and aggregation core of [app.py]

    A shallow embedding of the Streamlit script [app.py].

    Modelling choices, all of them visible in the definitions below:
    - Python [str] values are Rocq [string]s; [str.lower], [str.strip] and
      [str.isspace] are given on the ASCII range, where the job titles of
      the salary table live.
    - Python [int] scores are [Z].
    - The [float64] salary columns are carried in exact rational
      arithmetic ([Q]) extended with [NaN]; the binary rounding error of
      IEEE arithmetic is outside the model, [NaN] propagation is inside.
      The file [global_tech_salary.csv] is an argument: its lines, with a
      title and a finite salary each (no missing cells).
    - [career_scores] is a Python [dict]: an association list in insertion
      order, since [sorted] sees the items in that order.
    - The script talks to the page through [st.*] calls and may die with
      an uncaught exception: it is written in a small monad that threads
      the list of rendered elements and an exception result. *)

From Stdlib Require Import List String Ascii Bool Arith ZArith QArith Qround
  Qminmax Lia Lqa Permutation Sorted.
Import ListNotations.

Local Open Scope string_scope.
Local Open Scope Z_scope.

(** * Part I: the program *)

(** ** Python string primitives *)

Module PyStr.

(** [str.lower] on one character of the ASCII range. *)
Definition lower_char (c : ascii) : ascii :=
  let n := nat_of_ascii c in
  if ((65 <=? n) && (n <=? 90))%nat then ascii_of_nat (n + 32) else c.

Fixpoint lower (s : string) : string :=
  match s with
  | EmptyString => EmptyString
  | String c s' => String (lower_char c) (lower s')
  end.

(** [str.isspace] on one character of the ASCII range: TAB, LF, VT, FF,
    CR, the separators FS, GS, RS, US, and the space. *)
Definition is_space (c : ascii) : bool :=
  let n := nat_of_ascii c in
  (((9 <=? n) && (n <=? 13)) || ((28 <=? n) && (n <=? 32)))%nat.

Fixpoint lstrip (s : string) : string :=
  match s with
  | EmptyString => EmptyString
  | String c s' => if is_space c then lstrip s' else s
  end.

Fixpoint rstrip (s : string) : string :=
  match s with
  | EmptyString => EmptyString
  | String c s' =>
      match rstrip s' with
      | EmptyString => if is_space c then EmptyString else String c EmptyString
      | r => String c r
      end
  end.

(** [s.strip()] *)
Definition strip (s : string) : string := rstrip (lstrip s).

(** [s.split(",")]: never the empty list; the empty string splits into
    one empty field. *)
Fixpoint split_comma (s : string) : list string :=
  match s with
  | EmptyString => [EmptyString]
  | String c s' =>
      if Ascii.eqb c ","%char then EmptyString :: split_comma s'
      else match split_comma s' with
           | field :: fields => String c field :: fields
           | [] => [String c EmptyString]
           end
  end.

(** [sub in s]: containment of [sub] as a contiguous substring. *)
Fixpoint contains (s sub : string) : bool :=
  prefix sub s ||
  match s with
  | EmptyString => false
  | String _ s' => contains s' sub
  end.

End PyStr.

(** ** Python values: exceptions, ordered dictionaries, [sorted] *)

Module Py.

(** The uncaught exceptions the script can end with. *)
Inductive exn : Type :=
| IndexError
| KeyError (key : string)
| NameError (name : string)
| RemoteError (msg : string).

Inductive result (A : Type) : Type :=
| Ok (a : A)
| Raise (e : exn).
Arguments Ok {A} a.
Arguments Raise {A} e.

(** A [dict] with [str] keys, in insertion order. *)
Definition dict (V : Type) : Type := list (string * V).

(** [d[k] = v]: overwrite in place, or append a new key. *)
Fixpoint dict_set {V : Type} (d : dict V) (k : string) (v : V) : dict V :=
  match d with
  | [] => [(k, v)]
  | (k', v') :: d' =>
      if String.eqb k' k then (k', v) :: d' else (k', v') :: dict_set d' k v
  end.

Fixpoint dict_get {V : Type} (d : dict V) (k : string) : option V :=
  match d with
  | [] => None
  | (k', v') :: d' => if String.eqb k' k then Some v' else dict_get d' k
  end.

(** [d.items()] *)
Definition items {V : Type} (d : dict V) : list (string * V) := d.

(** [l[0]] *)
Definition index0 {A : Type} (l : list A) : result A :=
  match l with
  | [] => Raise IndexError
  | x :: _ => Ok x
  end.

Section Sorting.
Context {A : Type} (key : A -> Z).

(** Insertion in front of the first element whose key is not smaller:
    an element never overtakes an equal one that came before it. *)
Fixpoint insort (x : A) (l : list A) : list A :=
  match l with
  | [] => [x]
  | y :: l' => if key x <=? key y then x :: l else y :: insort x l'
  end.

Fixpoint stable_sort (l : list A) : list A :=
  match l with
  | [] => []
  | x :: l' => insort x (stable_sort l')
  end.

(** [sorted(l, key=key, reverse=reverse)]. As in CPython's [list.sort],
    [reverse=True] reverses the list, sorts it ascending and stably, and
    reverses the outcome, which keeps equal elements in their original
    order. *)
Definition sorted (reverse : bool) (l : list A) : list A :=
  if reverse then rev (stable_sort (rev l)) else stable_sort l.

End Sorting.

End Py.

(** ** pandas: a column as a list, [float64] as exact rationals with NaN *)

Module Pandas.
Import Py.

Inductive float64 : Type :=
| NaN
| Num (q : Q).

Definition mem (x : string) (l : list string) : bool :=
  existsb (String.eqb x) l.

(** [Series.unique()]: the distinct values in order of first appearance. *)
Fixpoint unique_from (seen : list string) (col : list string) : list string :=
  match col with
  | [] => []
  | x :: col' =>
      if mem x seen then unique_from seen col'
      else x :: unique_from (x :: seen) col'
  end.

Definition unique (col : list string) : list string := unique_from [] col.

(** [Series.value_counts()]: one count per distinct value. pandas then
    orders the entries by count; the script only reads the outcome by
    label, which does not look at that order. *)
Definition value_counts (col : list string) : dict Z :=
  fold_left
    (fun counts x =>
       dict_set counts x
         match dict_get counts x with Some n => n + 1 | None => 1 end)
    col [].

(** [series[label]] *)
Definition getitem {V : Type} (series : dict V) (label : string) : result V :=
  match dict_get series label with
  | Some v => Ok v
  | None => Raise (KeyError label)
  end.

Definition sum (xs : list Q) : Q := fold_left Qplus xs 0%Q.

(** [Series.mean()]: the sum over the number of values; [0.0 / 0] on the
    empty column, which is NaN and raises nothing. *)
Definition mean (xs : list Q) : float64 :=
  match xs with
  | [] => NaN
  | _ :: _ => Num (sum xs / inject_Z (Z.of_nat (List.length xs)))
  end.

(** [Series.min()] and [Series.max()]: NaN on the empty column. *)
Definition min (xs : list Q) : float64 :=
  match xs with
  | [] => NaN
  | x :: xs' => Num (fold_left Qmin xs' x)
  end.

Definition max (xs : list Q) : float64 :=
  match xs with
  | [] => NaN
  | x :: xs' => Num (fold_left Qmax xs' x)
  end.

(** Round to the nearest integer, halves to the even neighbour. *)
Definition rint (q : Q) : Z :=
  let f := Qfloor q in
  match (q - inject_Z f ?= 1 # 2)%Q with
  | Lt => f
  | Gt => f + 1
  | Eq => if Z.even f then f else f + 1
  end.

(** [round(x, ndigits)] on a float: NaN stays NaN. The outcome is kept in
    lowest terms. *)
Definition round (x : float64) (ndigits : nat) : float64 :=
  match x with
  | NaN => NaN
  | Num q =>
      let scale := inject_Z (10 ^ Z.of_nat ndigits) in
      Num (Qred (inject_Z (rint (q * scale)) / scale))
  end.

End Pandas.

(** ** The script [app.py] *)

Module App.
Import PyStr Py.

(** One line of [global_tech_salary.csv]: the two columns the script reads. *)
Record csv_row : Type := {
  csv_job_title : string;
  csv_salary_in_usd : Q
}.

(** One row of [salary_df] once loaded. *)
Record row : Type := {
  job_title : string;
  salary_in_usd : Q;
  salary_lpa : Q
}.

Definition DataFrame : Type := list row.

(** [salary_df["salary_lpa"] = (salary_df["salary_in_usd"] * 83) / 100000] *)
Definition add_salary_lpa (csv : list csv_row) : DataFrame :=
  map (fun r => {| job_title := csv_job_title r;
                   salary_in_usd := csv_salary_in_usd r;
                   salary_lpa := ((csv_salary_in_usd r * 83) / 100000)%Q |})
      csv.

(** [salary_df["job_title"] = salary_df["job_title"].str.strip()] *)
Definition strip_job_title (df : DataFrame) : DataFrame :=
  map (fun r => {| job_title := strip (job_title r);
                   salary_in_usd := salary_in_usd r;
                   salary_lpa := salary_lpa r |})
      df.

Definition load_data (csv : list csv_row) : DataFrame :=
  strip_job_title (add_salary_lpa csv).

(** [[s.strip().lower() for s in input.split(",")]] *)
Definition split_strip_lower (input : string) : list string :=
  map (fun s => lower (strip s)) (split_comma input).

(** The body of the loop over the titles: the score of one title. *)
Definition title_score (user_skills user_interests : list string)
    (title : string) : Z :=
  let score := 0 in
  let title_lower := lower title in
  let score :=
    fold_left
      (fun score skill => if contains title_lower skill then score + 2 else score)
      user_skills score in
  let score :=
    fold_left
      (fun score interest =>
         if contains title_lower interest then score + 1 else score)
      user_interests score in
  score.

(** [career_scores], filled over [salary_df["job_title"].unique()]. *)
Definition career_scores (user_skills user_interests : list string)
    (salary_df : DataFrame) : dict Z :=
  fold_left
    (fun career_scores title =>
       dict_set career_scores title
         (title_score user_skills user_interests title))
    (Pandas.unique (map job_title salary_df)) [].

(** [sorted(career_scores.items(), key=lambda x: x[1], reverse=True)] *)
Definition sorted_careers (career_scores : dict Z) : list (string * Z) :=
  sorted snd true (items career_scores).

(** [sorted_careers[0][0]] *)
Definition top_career (career_scores : dict Z) : result string :=
  match index0 (sorted_careers career_scores) with
  | Ok entry => Ok (fst entry)
  | Raise e => Raise e
  end.

(** From the two parsed lists to the recommended title. *)
Definition recommend (user_skills user_interests : list string)
    (salary_df : DataFrame) : result string :=
  top_career (career_scores user_skills user_interests salary_df).

(** [salary_df[salary_df["job_title"] == title]] *)
Definition career_data (salary_df : DataFrame) (title : string) : DataFrame :=
  filter (fun r => String.eqb (job_title r) title) salary_df.

Record CareerStats : Type := {
  avg_salary : Pandas.float64;
  min_salary : Pandas.float64;
  max_salary : Pandas.float64;
  demand_count : Z
}.

(** The three rounded statistics of the analysis page; none of these
    calls raises. *)
Definition salary_stats (salary_df : DataFrame) (title : string)
    : Pandas.float64 * Pandas.float64 * Pandas.float64 :=
  let data := map salary_lpa (career_data salary_df title) in
  (Pandas.round (Pandas.mean data) 2,
   Pandas.round (Pandas.min data) 2,
   Pandas.round (Pandas.max data) 2).

(** The aggregation of the analysis page: the statistics, then
    [salary_df["job_title"].value_counts()[title]]. *)
Definition career_stats (salary_df : DataFrame) (title : string)
    : result CareerStats :=
  let '(avg, lo, hi) := salary_stats salary_df title in
  match Pandas.getitem (Pandas.value_counts (map job_title salary_df)) title with
  | Ok count =>
      Ok {| avg_salary := avg; min_salary := lo; max_salary := hi;
            demand_count := count |}
  | Raise e => Raise e
  end.

(** The aggregation of the comparison page: [avg1] and [avg2]. *)
Definition compare_averages (salary_df : DataFrame) (career1 career2 : string)
    : Pandas.float64 * Pandas.float64 :=
  let data1 := career_data salary_df career1 in
  let data2 := career_data salary_df career2 in
  let avg1 := Pandas.round (Pandas.mean (map salary_lpa data1)) 2 in
  let avg2 := Pandas.round (Pandas.mean (map salary_lpa data2)) 2 in
  (avg1, avg2).

(** *** What the script renders, and how it can end *)

Inductive model_handle : Type :=
| GenerativeModel (model_name : string).

(** The prompt, kept as the three values its f-string interpolates. *)
Record prompt : Type := {
  prompt_skills : list string;
  prompt_interests : list string;
  prompt_career : string
}.

Inductive metric_value : Type :=
| metric_float (x : Pandas.float64)
| metric_int (n : Z)
| metric_range (lo hi : Pandas.float64).

Inductive figure : Type :=
| histogram (x : list Q)
| bar (careers : list string) (averages : list Pandas.float64).

Record report : Type := {
  report_career : string;
  report_salary : Pandas.float64;
  report_frequency : Z;
  report_insight : string
}.

Inductive element : Type :=
| st_error (body : string)
| st_sidebar_title (body : string)
| st_header (body : string)
| st_markdown (body : string)
| st_image
| st_write (body : string)
| st_success (body : string)
| st_metric (label : string) (value : metric_value)
| st_plotly_chart (fig : figure)
| st_info (body : string)
| st_download_button (pdf : report).

(** A run of the script: the elements rendered so far are threaded
    through, and an exception ends the run with what is on the page. *)
Definition M (A : Type) : Type := list element -> result A * list element.

Definition ret {A : Type} (a : A) : M A := fun page => (Ok a, page).

Definition bind {A B : Type} (c : M A) (k : A -> M B) : M B :=
  fun page =>
    match c page with
    | (Ok a, page') => k a page'
    | (Raise e, page') => (Raise e, page')
    end.

Definition render (e : element) : M unit := fun page => (Ok tt, (page ++ [e])%list).

Definition lift {A : Type} (r : result A) : M A := fun page => (r, page).

(** Reading a global name that may never have been bound. *)
Definition global {A : Type} (name : string) (binding : option A) : M A :=
  match binding with
  | Some a => ret a
  | None => lift (Raise (NameError name))
  end.

Notation "x <- c ;; k" := (bind c (fun x => k))
  (at level 61, c at next level, right associativity).
Notation "c ;; k" := (bind c (fun _ => k))
  (at level 61, right associativity).

Inductive page_name : Type :=
| Home
| CareerAnalysis
| CompareCareers
| About.

(** The state of the widgets in one run of the script. *)
Record widgets : Type := {
  menu : page_name;
  skills_input : string;
  interests_input : string;
  analyze_now : bool;       (* the button "Analyze Now" *)
  download_report : bool;   (* the button "Download Career Report" *)
  career1 : string;         (* the option picked in "Select Career 1" *)
  career2 : string;         (* the option picked in "Select Career 2" *)
  compare : bool            (* the button "Compare" *)
}.

(** Python truthiness of [st.secrets.get("GEMINI_API_KEY")]. *)
Definition truthy (secret : option string) : bool :=
  match secret with
  | Some EmptyString => false
  | Some _ => true
  | None => false
  end.

(** The Gemini block: [model] is bound only when the key is set. *)
Definition configure (GEMINI_API_KEY : option string) : M (option model_handle) :=
  if truthy GEMINI_API_KEY then ret (Some (GenerativeModel "gemini-1.5-flash"))
  else render (st_error "Gemini API Key not configured.") ;; ret None.

(** The static pages; their texts are cut to the first line. *)
Definition home : M unit :=
  render (st_markdown "CareerSense AI Pro") ;;
  render st_image ;;
  render (st_markdown "### What We Do") ;;
  render (st_write "Recommend best career based on your skills").

Definition about : M unit :=
  render (st_header "About CareerSense AI") ;;
  render (st_write "CareerSense AI is an AI-powered career intelligence platform").

Section Script.

(** The remote service behind [model.generate_content(prompt).text]. *)
Variable generate_content : model_handle -> prompt -> result string.

Definition career_analysis (model : option model_handle)
    (salary_df : DataFrame) (w : widgets) : M unit :=
  render (st_header "Analyze Your Career Path") ;;
  if analyze_now w then
    let user_skills := split_strip_lower (skills_input w) in
    let user_interests := split_strip_lower (interests_input w) in
    top_career <- lift (recommend user_skills user_interests salary_df) ;;
    render (st_success ("Recommended Career: " ++ top_career)) ;;
    stats <- lift (career_stats salary_df top_career) ;;
    render (st_metric "Avg Salary (LPA)" (metric_float (avg_salary stats))) ;;
    render (st_metric "Role Frequency" (metric_int (demand_count stats))) ;;
    render (st_metric "Salary Range"
              (metric_range (min_salary stats) (max_salary stats))) ;;
    render (st_plotly_chart
              (histogram (map salary_lpa (career_data salary_df top_career)))) ;;
    model <- global "model" model ;;
    explanation <-
      lift (generate_content model
              {| prompt_skills := user_skills;
                 prompt_interests := user_interests;
                 prompt_career := top_career |}) ;;
    render (st_info explanation) ;;
    if download_report w then
      render (st_download_button
                {| report_career := top_career;
                   report_salary := avg_salary stats;
                   report_frequency := demand_count stats;
                   report_insight := explanation |})
    else ret tt
  else ret tt.

Definition compare_careers (salary_df : DataFrame) (w : widgets) : M unit :=
  render (st_header "Compare Two Careers") ;;
  if compare w then
    let '(avg1, avg2) := compare_averages salary_df (career1 w) (career2 w) in
    render (st_plotly_chart (bar [career1 w; career2 w] [avg1; avg2]))
  else ret tt.

(** One run of the script, top to bottom. *)
Definition app (GEMINI_API_KEY : option string) (csv : list csv_row)
    (w : widgets) : M unit :=
  model <- configure GEMINI_API_KEY ;;
  let salary_df := load_data csv in
  render (st_sidebar_title "CareerSense AI") ;;
  match menu w with
  | Home => home
  | CareerAnalysis => career_analysis model salary_df w
  | CompareCareers => compare_careers salary_df w
  | About => about
  end.

End Script.

End App.

(** ** The specification's own formulations, to compare the script with *)

Module Spec.
Import PyStr.

(** How many entries of [words] occur as substrings of the lowercased
    title; an entry listed twice counts twice. *)
Definition substring_matches (words : list string) (title : string) : Z :=
  Z.of_nat (List.length (filter (fun w => contains (lower title) w) words)).

(** The direct maximum scan: start from the first pair and move on only to
    a strictly larger score, so that the earlier title wins a tie. *)
Definition max_scan (table : list (string * Z)) : option string :=
  match table with
  | [] => None
  | first :: rest =>
      Some (fst (fold_left
                   (fun best entry => if snd best <? snd entry then entry else best)
                   rest first))
  end.

End Spec.

(** ** A small salary table to run the script on *)

Module Example.
Import App.

(** Two samples of one title and one of another; the salaries are chosen
    so that the derived column reads 100, 200 and 150. *)
Definition csv : list csv_row :=
  [ {| csv_job_title := " Data Scientist"; csv_salary_in_usd := 10000000 # 83 |};
    {| csv_job_title := "Data Scientist"; csv_salary_in_usd := 20000000 # 83 |};
    {| csv_job_title := "Backend Engineer "; csv_salary_in_usd := 15000000 # 83 |} ].

Definition salary_df : DataFrame := load_data csv.

(** The analysis page with its button pressed. *)
Definition analyze (skills interests : string) : widgets :=
  {| menu := CareerAnalysis;
     skills_input := skills;
     interests_input := interests;
     analyze_now := true;
     download_report := false;
     career1 := "Data Scientist";
     career2 := "Data Scientist";
     compare := false |}.

(** A remote service that always answers. *)
Definition answering (m : model_handle) (p : prompt) : Py.result string :=
  Py.Ok "A good match.".

End Example.

(** * Part II: properties of the program *)

(** ** Strings *)

Module PyStrFacts.
Import PyStr.



(** A split always has a first field, so the parsed lists are never
    empty. *)
Lemma split_comma_not_nil (s : string) : split_comma s <> [].
Proof.
  induction s as [|c s IH]; cbn [split_comma]; [discriminate|].
  destruct (Ascii.eqb c ","%char); [discriminate|].
  destruct (split_comma s); discriminate.
Qed.

Lemma contains_empty (s : string) : contains s EmptyString = true.
Proof. destruct s; reflexivity. Qed.

Example contains_data : contains (lower "Data Scientist") "data" = true.
Proof. reflexivity. Qed.

Example contains_database :
  contains (lower "Database Administrator") "data" = true.
Proof. reflexivity. Qed.

Example contains_is_case_sensitive : contains "Data Scientist" "data" = false.
Proof. reflexivity. Qed.

Example split_empty : split_comma "" = [""].
Proof. reflexivity. Qed.

Example split_two : split_comma "Python , SQL" = ["Python "; " SQL"].
Proof. reflexivity. Qed.

Example split_lone_comma : split_comma "," = [""; ""].
Proof. reflexivity. Qed.

Example strip_both : strip "  Data Engineer  " = "Data Engineer".
Proof. reflexivity. Qed.

End PyStrFacts.

(** ** [sorted]: a permutation, in key order, stable; and its first element *)

Module SortedFacts.
Import Py.

Section Facts.
Context {A : Type} (key : A -> Z).

Local Abbreviation ascending := (fun a b : A => key a <= key b).
Local Abbreviation descending := (fun a b : A => key b <= key a).
Local Abbreviation has_key k := (fun a : A => key a =? k).

Lemma insort_perm (x : A) (l : list A) :
  Permutation (x :: l) (insort key x l).
Proof.
  induction l as [|y l IH]; simpl; [reflexivity|].
  destruct (key x <=? key y); [reflexivity|].
  rewrite perm_swap. now constructor.
Qed.

Lemma stable_sort_perm (l : list A) : Permutation l (stable_sort key l).
Proof.
  induction l as [|x l IH]; simpl; [constructor|].
  rewrite <- insort_perm. now constructor.
Qed.

Lemma sorted_perm (reverse : bool) (l : list A) :
  Permutation l (sorted key reverse l).
Proof.
  unfold sorted. destruct reverse.
  - rewrite <- Permutation_rev, <- stable_sort_perm. apply Permutation_rev.
  - apply stable_sort_perm.
Qed.

Lemma insort_ascending (x : A) (l : list A) :
  StronglySorted ascending l -> StronglySorted ascending (insort key x l).
Proof.
  induction 1 as [|y l Hs IH Hy]; simpl.
  - repeat constructor.
  - destruct (Z.leb_spec (key x) (key y)) as [Hle|Hlt].
    + constructor; [now constructor|].
      constructor; [exact Hle|].
      eapply Forall_impl; [|exact Hy]. cbn. intros; lia.
    + constructor; [exact IH|].
      eapply Permutation_Forall; [apply insort_perm|].
      constructor; [lia | exact Hy].
Qed.

Lemma stable_sort_ascending (l : list A) :
  StronglySorted ascending (stable_sort key l).
Proof.
  induction l; simpl; [constructor | now apply insort_ascending].
Qed.

Lemma snoc_descending (y : A) (m : list A) :
  StronglySorted descending m -> Forall (fun b => key y <= key b) m ->
  StronglySorted descending (m ++ [y]).
Proof.
  induction 1 as [|z m Hm IHm Hz]; simpl; intros Hall.
  - repeat constructor.
  - inversion Hall; subst. constructor; [now apply IHm|].
    apply Forall_app. split; [exact Hz|]. now repeat constructor.
Qed.

Lemma rev_descending (l : list A) :
  StronglySorted ascending l -> StronglySorted descending (rev l).
Proof.
  induction 1 as [|y l Hs IH Hy]; simpl; [constructor|].
  apply snoc_descending; [exact IH|]. now apply Forall_rev.
Qed.

(** With [reverse=True] the outcome is in descending key order. *)
Lemma sorted_reverse_descending (l : list A) :
  StronglySorted descending (sorted key true l).
Proof. apply rev_descending, stable_sort_ascending. Qed.

Lemma filter_insort (k : Z) (x : A) (l : list A) :
  filter (has_key k) (insort key x l) = filter (has_key k) (x :: l).
Proof.
  induction l as [|y l IH]; [reflexivity|].
  cbn [insort]. destruct (Z.leb_spec (key x) (key y)) as [Hle|Hlt];
    [reflexivity|].
  cbn [filter] in *. rewrite IH.
  destruct (Z.eqb_spec (key x) k), (Z.eqb_spec (key y) k);
    try reflexivity; lia.
Qed.

Lemma filter_stable_sort (k : Z) (l : list A) :
  filter (has_key k) (stable_sort key l) = filter (has_key k) l.
Proof.
  induction l as [|x l IH]; [reflexivity|].
  cbn [stable_sort]. rewrite filter_insort. cbn [filter]. now rewrite IH.
Qed.

(** [sorted] is stable in both directions: the elements of any one key
    come out in the order they went in. *)
Lemma sorted_stable (reverse : bool) (k : Z) (l : list A) :
  filter (has_key k) (sorted key reverse l) = filter (has_key k) l.
Proof.
  unfold sorted. destruct reverse.
  - rewrite filter_rev, filter_stable_sort, filter_rev. apply rev_involutive.
  - apply filter_stable_sort.
Qed.

(** Where the largest key ends up in the ascending pass. *)
Lemma last_insort (d x : A) (s : list A) :
  StronglySorted ascending s -> s <> [] ->
  last (insort key x s) d = if key (last s d) <? key x then x else last s d.
Proof.
  induction 1 as [|y s Hs IH Hy]; intros Hne; [contradiction|].
  cbn [insort]. destruct (Z.leb_spec (key x) (key y)) as [Hle|Hlt].
  - change (last (x :: y :: s) d) with (last (y :: s) d).
    assert (Hin : In (last (y :: s) d) (y :: s)).
    { destruct (exists_last Hne) as [m [z Hz]]. rewrite Hz, last_last.
      apply in_or_app. right. now left. }
    destruct Hin as [<-|Hin].
    + destruct (Z.ltb_spec (key y) (key x)); [lia | reflexivity].
    + rewrite Forall_forall in Hy. specialize (Hy _ Hin).
      destruct (Z.ltb_spec (key (last (y :: s) d)) (key x)); [lia | reflexivity].
  - destruct s as [|z s].
    + cbn. destruct (Z.ltb_spec (key y) (key x)); [reflexivity | lia].
    + assert (Hz : z :: s <> []) by discriminate.
      specialize (IH Hz).
      change (last (y :: z :: s) d) with (last (z :: s) d).
      rewrite <- IH. cbn [insort].
      destruct (key x <=? key z); reflexivity.
Qed.

Lemma stable_sort_not_nil (l : list A) : l <> [] -> stable_sort key l <> [].
Proof.
  intros Hne Hnil. apply Hne. apply Permutation_nil.
  rewrite <- Hnil. symmetry. apply stable_sort_perm.
Qed.

Lemma last_stable_sort (d a : A) (m : list A) :
  last (stable_sort key (m ++ [a])) d =
  fold_right (fun x best => if key best <? key x then x else best) a m.
Proof.
  induction m as [|x m IH]; [reflexivity|].
  cbn [app stable_sort fold_right]. rewrite last_insort.
  - now rewrite IH.
  - apply stable_sort_ascending.
  - apply stable_sort_not_nil. now destruct m.
Qed.

(** The first element of a descending [sorted]: scan from the left and
    move on only to a strictly larger key. *)
Lemma hd_sorted_reverse (first : A) (rest : list A) :
  sorted key true (first :: rest) =
  fold_left (fun best x => if key best <? key x then x else best) rest first
  :: tl (sorted key true (first :: rest)).
Proof.
  unfold sorted. cbn [rev].
  assert (Hne : stable_sort key (rev rest ++ [first]) <> []).
  { apply stable_sort_not_nil. now destruct (rev rest). }
  destruct (exists_last Hne) as [m [z Hz]].
  pose proof (last_stable_sort first first (rev rest)) as Hlast.
  rewrite Hz, last_last in Hlast. rewrite Hz, rev_app_distr. cbn.
  rewrite Hlast. f_equal.
  exact (fold_left_rev_right
           (fun x best => if key best <? key x then x else best) rest first).
Qed.

End Facts.

End SortedFacts.

(** ** Dictionaries *)

Module DictFacts.
Import Py.

Section Facts.
Context {V : Type}.

Lemma dict_get_set_same (d : dict V) (k : string) (v : V) :
  dict_get (dict_set d k v) k = Some v.
Proof.
  induction d as [|[k' v'] d IH]; cbn.
  - now rewrite String.eqb_refl.
  - destruct (String.eqb_spec k' k) as [->|Hne]; cbn.
    + now rewrite String.eqb_refl.
    + destruct (String.eqb_spec k' k); [contradiction | exact IH].
Qed.

Lemma dict_get_set_other (d : dict V) (k k' : string) (v : V) :
  k <> k' -> dict_get (dict_set d k v) k' = dict_get d k'.
Proof.
  intros Hne. induction d as [|[k0 v0] d IH]; cbn.
  - destruct (String.eqb_spec k k'); [contradiction | reflexivity].
  - destruct (String.eqb_spec k0 k) as [->|Hk0]; cbn.
    + destruct (String.eqb_spec k k'); [contradiction | reflexivity].
    + now rewrite IH.
Qed.

(** Assigning to a key that is not there yet appends it. *)
Lemma dict_set_fresh (d : dict V) (k : string) (v : V) :
  ~ In k (map fst d) -> dict_set d k v = (d ++ [(k, v)])%list.
Proof.
  induction d as [|[k' v'] d IH]; cbn; intros Hk; [reflexivity|].
  destruct (String.eqb_spec k' k) as [->|Hne].
  - exfalso. apply Hk. now left.
  - rewrite IH; [reflexivity|]. intros Hin. apply Hk. now right.
Qed.

(** Filling a dictionary over distinct fresh keys lists them in order. *)
Lemma fill_fresh (f : string -> V) (keys : list string) (d : dict V) :
  NoDup keys -> (forall k, In k keys -> ~ In k (map fst d)) ->
  fold_left (fun d k => dict_set d k (f k)) keys d =
  (d ++ map (fun k => (k, f k)) keys)%list.
Proof.
  revert d. induction keys as [|k keys IH]; intros d Hnd Hfresh; cbn.
  - now rewrite app_nil_r.
  - inversion Hnd as [|? ? Hk Hnd']; subst.
    rewrite dict_set_fresh by (apply Hfresh; now left).
    rewrite IH; [now rewrite <- app_assoc | exact Hnd' |].
    intros k' Hk'. rewrite map_app, in_app_iff. cbn.
    intros [Hin | [<- | []]].
    + apply (Hfresh k'); [now right | exact Hin].
    + contradiction.
Qed.

Lemma dict_get_tabulate (f : string -> V) (keys : list string) (k : string) :
  In k keys -> dict_get (map (fun k => (k, f k)) keys) k = Some (f k).
Proof.
  induction keys as [|k' keys IH]; cbn; [contradiction|].
  intros Hin. destruct (String.eqb_spec k' k) as [->|Hne]; [reflexivity|].
  destruct Hin as [->|Hin]; [contradiction | now apply IH].
Qed.

End Facts.

End DictFacts.

(** ** pandas columns *)

Module PandasFacts.
Import Py.

Lemma mem_iff (x : string) (l : list string) :
  Pandas.mem x l = true <-> In x l.
Proof.
  unfold Pandas.mem. rewrite existsb_exists. split.
  - intros [y [Hy Heq]]. apply String.eqb_eq in Heq. now subst.
  - intros Hin. exists x. split; [exact Hin | apply String.eqb_refl].
Qed.

Lemma unique_from_in (seen col : list string) (x : string) :
  In x (Pandas.unique_from seen col) <-> In x col /\ ~ In x seen.
Proof.
  revert seen. induction col as [|y col IH]; intros seen; cbn.
  - tauto.
  - destruct (Pandas.mem y seen) eqn:Hmem.
    + apply mem_iff in Hmem. rewrite IH. split.
      * tauto.
      * intros [[->|Hin] Hns]; [contradiction | tauto].
    + assert (Hy : ~ In y seen).
      { intros Hin. apply mem_iff in Hin. congruence. }
      cbn. rewrite IH. cbn. split.
      * intros [->|[Hin Hns]]; [tauto|]. split; [tauto|]. tauto.
      * intros [[->|Hin] Hns]; [now left|].
        destruct (String.string_dec y x) as [->|Hne]; [now left|].
        right. split; [exact Hin|]. intros [Heq|Hs]; [contradiction|tauto].
Qed.

Lemma unique_from_nodup (seen col : list string) :
  NoDup (Pandas.unique_from seen col).
Proof.
  revert seen. induction col as [|y col IH]; intros seen; cbn.
  - constructor.
  - destruct (Pandas.mem y seen); [apply IH|].
    constructor; [|apply IH].
    rewrite unique_from_in. cbn. tauto.
Qed.

(** [unique()] keeps exactly the values of the column, each once. *)
Lemma unique_in (col : list string) (x : string) :
  In x (Pandas.unique col) <-> In x col.
Proof. unfold Pandas.unique. rewrite unique_from_in. cbn. tauto. Qed.

Lemma unique_nodup (col : list string) : NoDup (Pandas.unique col).
Proof. apply unique_from_nodup. Qed.

(** [unique()] starts with the first value of the column. *)
Lemma unique_cons (x : string) (col : list string) :
  Pandas.unique (x :: col) = x :: Pandas.unique_from [x] col.
Proof. reflexivity. Qed.

(** The count that [value_counts()] holds for a label is the number of
    entries of the column equal to it; a label that never occurs has no
    entry. *)
Lemma value_counts_from (col : list string) (d : dict Z) (t : string) :
  dict_get
    (fold_left
       (fun counts x =>
          dict_set counts x
            match dict_get counts x with Some n => n + 1 | None => 1 end)
       col d) t =
  let n := Z.of_nat (List.length (filter (fun x => String.eqb x t) col)) in
  match dict_get d t with
  | Some m => Some (m + n)
  | None => if n =? 0 then None else Some n
  end.
Proof.
  revert d. induction col as [|x col IH]; intros d; cbn [fold_left filter].
  - cbn. destruct (dict_get d t); [f_equal; lia | reflexivity].
  - rewrite IH. destruct (String.eqb_spec x t) as [->|Hne].
    + rewrite DictFacts.dict_get_set_same. cbn [List.length].
      cbv zeta. rewrite Nat2Z.inj_succ.
      destruct (dict_get d t) as [m|].
      * f_equal. lia.
      * destruct (Z.eqb_spec (Z.succ (Z.of_nat
          (List.length (filter (fun x => String.eqb x t) col)))) 0);
          [lia | f_equal; lia].
    + now rewrite DictFacts.dict_get_set_other.
Qed.

Lemma value_counts_get (col : list string) (t : string) :
  dict_get (Pandas.value_counts col) t =
  match filter (fun x => String.eqb x t) col with
  | [] => None
  | occurrences => Some (Z.of_nat (List.length occurrences))
  end.
Proof.
  unfold Pandas.value_counts. rewrite value_counts_from.
  cbv zeta. cbn [dict_get].
  destruct (filter (fun x => String.eqb x t) col) as [|x occurrences];
    [reflexivity|].
  destruct (Z.eqb_spec (Z.of_nat (List.length (x :: occurrences))) 0)
    as [Hz|Hz]; [|reflexivity].
  cbn [List.length] in Hz. lia.
Qed.






Example round_half_to_even_down :
  Pandas.round (Pandas.Num (1 # 8)) 2 = Pandas.Num (3 # 25).
Proof. reflexivity. Qed.

Example round_half_to_even_up :
  Pandas.round (Pandas.Num (3 # 8)) 2 = Pandas.Num (19 # 50).
Proof. reflexivity. Qed.

Example round_nan : Pandas.round Pandas.NaN 2 = Pandas.NaN.
Proof. reflexivity. Qed.

End PandasFacts.

(** ** The scorer *)

Module ScorerFacts.
Import PyStr Py App.

Lemma fold_add_if (p : string -> bool) (c : Z) (words : list string) (s0 : Z) :
  fold_left (fun score w => if p w then score + c else score) words s0 =
  s0 + c * Z.of_nat (List.length (filter p words)).
Proof.
  revert s0. induction words as [|w words IH]; intros s0; cbn [fold_left filter].
  - cbn. lia.
  - rewrite IH. destruct (p w); [|reflexivity].
    cbn [List.length]. lia.
Qed.

(** The two loops add 2 per matching skill and 1 per matching interest. *)
Lemma title_score_eq (user_skills user_interests : list string) (title : string) :
  title_score user_skills user_interests title =
  2 * Spec.substring_matches user_skills title +
  1 * Spec.substring_matches user_interests title.
Proof.
  unfold title_score, Spec.substring_matches. cbv zeta.
  now rewrite !fold_add_if.
Qed.

Lemma title_score_nonneg (user_skills user_interests : list string) (title : string) :
  0 <= title_score user_skills user_interests title.
Proof. rewrite title_score_eq. unfold Spec.substring_matches. lia. Qed.

(** The dictionary holds the distinct titles in order of first appearance,
    each with its own score. *)
Lemma career_scores_eq (user_skills user_interests : list string)
    (salary_df : DataFrame) :
  career_scores user_skills user_interests salary_df =
  map (fun title => (title, title_score user_skills user_interests title))
      (Pandas.unique (map job_title salary_df)).
Proof.
  unfold career_scores.
  rewrite (DictFacts.fill_fresh (title_score user_skills user_interests));
    [reflexivity | apply PandasFacts.unique_nodup | intros k _ []].
Qed.

Lemma career_scores_get (user_skills user_interests : list string)
    (salary_df : DataFrame) (title : string) :
  In title (map job_title salary_df) ->
  dict_get (career_scores user_skills user_interests salary_df) title =
  Some (title_score user_skills user_interests title).
Proof.
  intros Hin. rewrite career_scores_eq.
  apply DictFacts.dict_get_tabulate. now apply PandasFacts.unique_in.
Qed.

(** The recommendation as a scan: lines 99 and 100 on any dictionary. *)
Lemma top_career_scan (scores : dict Z) :
  top_career scores =
  match scores with
  | [] => Raise IndexError
  | first :: rest =>
      Ok (fst (fold_left
                 (fun best entry => if snd best <? snd entry then entry else best)
                 rest first))
  end.
Proof.
  destruct scores as [|first rest]; [reflexivity|].
  unfold top_career, sorted_careers, items.
  now rewrite SortedFacts.hd_sorted_reverse.
Qed.

Lemma scan_stays (first : string * Z) (rest : list (string * Z)) :
  (forall entry, In entry rest -> snd entry <= snd first) ->
  fold_left (fun best entry => if snd best <? snd entry then entry else best)
            rest first = first.
Proof.
  induction rest as [|e rest IH]; intros Hle; [reflexivity|].
  cbn [fold_left]. destruct (Z.ltb_spec (snd first) (snd e)) as [Hlt|_].
  - specialize (Hle e (or_introl eq_refl)). lia.
  - apply IH. intros entry Hin. apply Hle. now right.
Qed.

Lemma scan_in (first : string * Z) (rest : list (string * Z)) :
  In (fold_left (fun best entry => if snd best <? snd entry then entry else best)
                rest first) (first :: rest).
Proof.
  revert first. induction rest as [|e rest IH]; intros first; [now left|].
  cbn [fold_left]. destruct (snd first <? snd e).
  - right. apply IH.
  - destruct (IH first) as [Heq|Hin]; [now left | right; now right].
Qed.

Lemma scan_ge_start (first : string * Z) (rest : list (string * Z)) :
  snd first <=
  snd (fold_left (fun best entry => if snd best <? snd entry then entry else best)
                 rest first).
Proof.
  revert first. induction rest as [|e rest IH]; intros first; cbn [fold_left].
  - lia.
  - destruct (Z.ltb_spec (snd first) (snd e)) as [Hlt|Hge].
    + specialize (IH e). lia.
    + apply IH.
Qed.

(** What the scan finds is the first pair of largest score: every pair
    before it scores strictly less, no pair after it scores more. *)
Lemma scan_first_maximum (first : string * Z) (rest : list (string * Z)) :
  exists before after,
    first :: rest =
      (before ++
       fold_left (fun best entry => if snd best <? snd entry then entry else best)
                 rest first :: after)%list
    /\ Forall (fun entry =>
                 snd entry <
                 snd (fold_left
                        (fun best entry => if snd best <? snd entry then entry else best)
                        rest first)) before
    /\ Forall (fun entry =>
                 snd entry <=
                 snd (fold_left
                        (fun best entry => if snd best <? snd entry then entry else best)
                        rest first)) after.
Proof.
  revert first. induction rest as [|e rest IH]; intros first; cbn [fold_left].
  - exists [], []. repeat split; constructor.
  - destruct (Z.ltb_spec (snd first) (snd e)) as [Hlt|Hge].
    + destruct (IH e) as [before [after [Heq [Hbefore Hafter]]]].
      exists (first :: before), after. split; [cbn; now rewrite <- Heq|].
      split; [|exact Hafter]. constructor; [|exact Hbefore].
      pose proof (scan_ge_start e rest). lia.
    + destruct (IH first) as [before [after [Heq [Hbefore Hafter]]]].
      remember (fold_left
                  (fun best entry => if snd best <? snd entry then entry else best)
                  rest first) as best eqn:Hbest.
      clear Hbest IH.
      destruct before as [|b before]; cbn in Heq; injection Heq as Hfirst Hrest.
      * subst best after. exists [], (e :: rest).
        split; [reflexivity|]. split; [constructor|].
        constructor; [exact Hge | exact Hafter].
      * subst b rest. exists (first :: e :: before), after.
        split; [reflexivity|].
        inversion Hbefore as [|? ? Hfirst Hbefore']; subst.
        split; [|exact Hafter].
        constructor; [exact Hfirst|]. constructor; [lia | exact Hbefore'].
Qed.

Lemma scan_key_in (first : string * Z) (rest : list (string * Z)) :
  In (fst (fold_left
             (fun best entry => if snd best <? snd entry then entry else best)
             rest first))
     (map fst (first :: rest)).
Proof. apply in_map, scan_in. Qed.

(** With at least one row the recommendation is one of the titles. *)
Lemma recommend_some (user_skills user_interests : list string)
    (r : row) (salary_df : DataFrame) :
  exists title,
    recommend user_skills user_interests (r :: salary_df) = Ok title /\
    In title (map job_title (r :: salary_df)).
Proof.
  unfold recommend. rewrite top_career_scan.
  destruct (career_scores user_skills user_interests (r :: salary_df))
    as [|first rest] eqn:Hs.
  - rewrite career_scores_eq in Hs. cbn [map] in Hs.
    rewrite PandasFacts.unique_cons in Hs. discriminate.
  - eexists. split; [reflexivity|].
    pose proof (scan_key_in first rest) as Hin.
    rewrite <- Hs, career_scores_eq, map_map in Hin. cbn [fst] in Hin.
    rewrite map_id in Hin. exact (proj1 (PandasFacts.unique_in _ _) Hin).
Qed.

(** The recommended title is the first title of largest score. *)
Lemma top_career_first_maximum (scores : dict Z) (title : string) :
  top_career scores = Ok title ->
  exists before score after,
    scores = (before ++ (title, score) :: after)%list
    /\ Forall (fun entry => snd entry < score) before
    /\ Forall (fun entry => snd entry <= score) after.
Proof.
  rewrite top_career_scan. destruct scores as [|first rest]; [discriminate|].
  intros Htop. inversion Htop as [Htitle]. clear Htop.
  destruct (scan_first_maximum first rest)
    as [before [after [Heq [Hbefore Hafter]]]].
  destruct (fold_left _ rest first) as [t s]. cbn [fst snd] in *.
  now exists before, s, after.
Qed.

Example tie_keeps_first_title :
  career_scores ["e"] [] Example.salary_df =
    [("Data Scientist", 2); ("Backend Engineer", 2)]
  /\ recommend ["e"] [] Example.salary_df = Ok "Data Scientist".
Proof. split; reflexivity. Qed.

Example larger_score_wins :
  sorted_careers (career_scores ["engineer"] ["back"] Example.salary_df) =
    [("Backend Engineer", 3); ("Data Scientist", 0)].
Proof. reflexivity. Qed.

End ScorerFacts.

(** ** The claims about the scorer *)

Import PyStr Py App.

(** C1. For all skills, all interests and every table, the dictionary of
    scores has one entry per distinct title, in order of first appearance;
    the score of a title is 2 times the number of skills that are
    substrings of the lowercased title plus 1 times the number of
    interests that are; every score is a non-negative integer. *)
Theorem C1_score_is_weighted_match_count
    (user_skills user_interests : list string) (salary_df : DataFrame) :
  career_scores user_skills user_interests salary_df =
    map (fun title =>
           (title,
            2 * Spec.substring_matches user_skills title +
            1 * Spec.substring_matches user_interests title))
        (Pandas.unique (map job_title salary_df))
  /\ Forall (fun entry => 0 <= snd entry)
       (items (career_scores user_skills user_interests salary_df)).
Proof.
  split.
  - rewrite ScorerFacts.career_scores_eq. apply map_ext.
    intros title. now rewrite ScorerFacts.title_score_eq.
  - unfold items. rewrite ScorerFacts.career_scores_eq.
    apply Forall_forall. intros entry Hin.
    apply in_map_iff in Hin as [title [<- _]].
    apply ScorerFacts.title_score_nonneg.
Qed.

(** C2. For every table of scores, sorting the pairs in descending order
    of score with the stable sort and taking the title of the first pair
    gives the title that the direct maximum scan gives, the scan that on a
    tie keeps the earlier title; on the empty table the first fails with
    IndexError and the second finds nothing. *)
Theorem C2_sorted_head_is_max_scan (scores : dict Z) :
  top_career scores =
  match Spec.max_scan (items scores) with
  | Some title => Ok title
  | None => Raise IndexError
  end.
Proof.
  rewrite ScorerFacts.top_career_scan.
  destruct scores as [|first rest]; reflexivity.
Qed.

(** C5. When the table has at least one title and every title scores 0,
    the recommendation succeeds and is the first title in the order in
    which the titles first appear. *)
Theorem C5_all_zero_recommends_first_title
    (user_skills user_interests : list string) (salary_df : DataFrame)
    (first : string) (rest : list string) :
  Pandas.unique (map job_title salary_df) = first :: rest ->
  (forall title score,
      In (title, score) (items (career_scores user_skills user_interests salary_df)) ->
      score = 0) ->
  recommend user_skills user_interests salary_df = Ok first.
Proof.
  intros Hu Hzero. unfold recommend, items in *.
  rewrite ScorerFacts.top_career_scan.
  rewrite ScorerFacts.career_scores_eq, Hu in *. cbn [map] in *.
  rewrite ScorerFacts.scan_stays; [reflexivity|].
  intros [title score] Hin. cbn [snd].
  rewrite (Hzero title score) by (now right).
  rewrite (Hzero first _ (or_introl eq_refl)). lia.
Qed.

Lemma C5_witness :
  recommend ["cobol"] ["sailing"] Example.salary_df = Ok "Data Scientist"
  /\ recommend [] [] Example.salary_df = Ok "Data Scientist".
Proof.
  split.
  - apply (C5_all_zero_recommends_first_title
             ["cobol"] ["sailing"] Example.salary_df
             "Data Scientist" ["Backend Engineer"]).
    + reflexivity.
    + intros title score Hin. vm_compute in Hin.
      destruct Hin as [Heq|[Heq|[]]]; now inversion Heq.
  - apply (C5_all_zero_recommends_first_title
             [] [] Example.salary_df "Data Scientist" ["Backend Engineer"]).
    + reflexivity.
    + intros title score Hin. vm_compute in Hin.
      destruct Hin as [Heq|[Heq|[]]]; now inversion Heq.
Defined.

(** C6. When the skills contain the empty string and there are no
    interests, every title of the table has a score, and it is at least 2:
    the empty string is a substring of every title. *)
Theorem C6_empty_skill_scores_every_title
    (user_skills : list string) (salary_df : DataFrame) (title : string) :
  In EmptyString user_skills ->
  In title (map job_title salary_df) ->
  exists score,
    dict_get (career_scores user_skills [] salary_df) title = Some score /\
    2 <= score.
Proof.
  intros Hempty Htitle. eexists. split.
  - now apply ScorerFacts.career_scores_get.
  - rewrite ScorerFacts.title_score_eq. unfold Spec.substring_matches.
    cbn [filter List.length].
    assert (Hin : In EmptyString
                    (filter (fun w => contains (lower title) w) user_skills)).
    { apply filter_In. split; [exact Hempty | apply PyStrFacts.contains_empty]. }
    destruct (filter (fun w => contains (lower title) w) user_skills);
      [contradiction|].
    cbn [List.length]. lia.
Qed.

(** An empty skills field is such an input: it parses to one empty skill. *)
Lemma C6_witness :
  split_strip_lower "" = [""] /\
  exists score,
    dict_get (career_scores (split_strip_lower "") [] Example.salary_df)
             "Backend Engineer" = Some score /\
    2 <= score.
Proof.
  split; [reflexivity|].
  apply (C6_empty_skill_scores_every_title
           (split_strip_lower "") Example.salary_df "Backend Engineer").
  - now left.
  - vm_compute. right. right. now left.
Defined.

(** C10. The recommendation needs a title: on a table with at least one
    row it succeeds with one of the table's titles, and on the table
    without rows, and only there, indexing the sorted list fails with
    IndexError. *)
Theorem C10_recommendation_needs_a_title
    (user_skills user_interests : list string) (salary_df : DataFrame) :
  match salary_df with
  | [] => recommend user_skills user_interests salary_df = Raise IndexError
  | _ :: _ =>
      exists title,
        recommend user_skills user_interests salary_df = Ok title /\
        In title (map job_title salary_df)
  end.
Proof.
  destruct salary_df as [|r salary_df]; [reflexivity|].
  apply ScorerFacts.recommend_some.
Qed.

(** ** The aggregator *)

Module AggregatorFacts.

(** The rows kept are those whose title is the given one, letter for
    letter. *)
Lemma career_data_in (salary_df : DataFrame) (title : string) (r : row) :
  In r (career_data salary_df title) <-> In r salary_df /\ job_title r = title.
Proof.
  unfold career_data. rewrite filter_In. now rewrite String.eqb_eq.
Qed.

Lemma career_data_absent (salary_df : DataFrame) (title : string) :
  ~ In title (map job_title salary_df) -> career_data salary_df title = [].
Proof.
  intros Habsent. destruct (career_data salary_df title) as [|r rows] eqn:Hd;
    [reflexivity|].
  exfalso. apply Habsent.
  assert (Hr : In r (career_data salary_df title)) by (rewrite Hd; now left).
  apply career_data_in in Hr as [Hr <-]. now apply in_map.
Qed.

Lemma career_data_present (salary_df : DataFrame) (title : string) :
  In title (map job_title salary_df) -> career_data salary_df title <> [].
Proof.
  intros Hin Hnil. apply in_map_iff in Hin as [r [Ht Hr]].
  assert (Hin : In r (career_data salary_df title))
    by (now apply career_data_in).
  now rewrite Hnil in Hin.
Qed.

Lemma title_column_filter (salary_df : DataFrame) (title : string) :
  filter (fun x => String.eqb x title) (map job_title salary_df) =
  map job_title (career_data salary_df title).
Proof.
  unfold career_data. induction salary_df as [|r df IH]; [reflexivity|].
  cbn [map filter]. destruct (String.eqb (job_title r) title); cbn [map];
    now rewrite IH.
Qed.

(** Looking a title up in [value_counts()] counts the rows of that
    title, and raises KeyError when there is none. *)
Lemma demand_count_eq (salary_df : DataFrame) (title : string) :
  Pandas.getitem (Pandas.value_counts (map job_title salary_df)) title =
  match career_data salary_df title with
  | [] => Raise (KeyError title)
  | rows => Ok (Z.of_nat (List.length rows))
  end.
Proof.
  unfold Pandas.getitem.
  rewrite PandasFacts.value_counts_get, title_column_filter.
  destruct (career_data salary_df title); [reflexivity|].
  cbn [map]. now rewrite <- (length_map job_title).
Qed.

Lemma career_stats_eq (salary_df : DataFrame) (title : string) :
  career_stats salary_df title =
  let salaries := map salary_lpa (career_data salary_df title) in
  match career_data salary_df title with
  | [] => Raise (KeyError title)
  | rows =>
      Ok {| avg_salary := Pandas.round (Pandas.mean salaries) 2;
            min_salary := Pandas.round (Pandas.min salaries) 2;
            max_salary := Pandas.round (Pandas.max salaries) 2;
            demand_count := Z.of_nat (List.length rows) |}
  end.
Proof.
  unfold career_stats, salary_stats. rewrite demand_count_eq.
  now destruct (career_data salary_df title).
Qed.

Lemma load_data_cons (line : csv_row) (csv : list csv_row) :
  load_data (line :: csv) =
  {| job_title := strip (csv_job_title line);
     salary_in_usd := csv_salary_in_usd line;
     salary_lpa := (csv_salary_in_usd line * 83 / 100000)%Q |}
  :: load_data csv.
Proof. reflexivity. Qed.

(** The scenario of the specification. *)
Example scenario_recommendation :
  recommend ["data"] [] Example.salary_df = Ok "Data Scientist".
Proof. reflexivity. Qed.

Example scenario_scores :
  career_scores ["data"] [] Example.salary_df =
  [("Data Scientist", 2); ("Backend Engineer", 0)].
Proof. reflexivity. Qed.

Example scenario_stats :
  career_stats Example.salary_df "Data Scientist" =
  Ok {| avg_salary := Pandas.Num 150; min_salary := Pandas.Num 100;
        max_salary := Pandas.Num 200; demand_count := 2 |}.
Proof. reflexivity. Qed.

Example title_filter_is_not_substring :
  career_data Example.salary_df "Data" = [].
Proof. reflexivity. Qed.

End AggregatorFacts.

(** ** The claims about the aggregator and the loader *)








(** ** The missing credential *)

Module CredentialFacts.

Section Runs.
Variable generate_content : model_handle -> prompt -> result string.

(** Without the key the notice is rendered and [model] stays unbound. *)
Lemma configure_without_key (key : option string) (page : list element) :
  truthy key = false ->
  configure key page =
  (Ok None, (page ++ [st_error "Gemini API Key not configured."])%list).
Proof. intros Hkey. unfold configure. now rewrite Hkey. Qed.

Lemma configure_with_key (key : option string) (page : list element) :
  truthy key = true ->
  configure key page = (Ok (Some (GenerativeModel "gemini-1.5-flash")), page).
Proof. intros Hkey. unfold configure. now rewrite Hkey. Qed.

(** The analysis page with [model] unbound: everything up to the chart is
    rendered, then the run ends with NameError. *)
Lemma career_analysis_without_model (salary_df : DataFrame) (w : widgets)
    (page : list element) (title : string) (stats : CareerStats) :
  analyze_now w = true ->
  recommend (split_strip_lower (skills_input w))
            (split_strip_lower (interests_input w)) salary_df = Ok title ->
  career_stats salary_df title = Ok stats ->
  career_analysis generate_content None salary_df w page =
  (Raise (NameError "model"),
   (page ++
    [ st_header "Analyze Your Career Path";
      st_success ("Recommended Career: " ++ title);
      st_metric "Avg Salary (LPA)" (metric_float (avg_salary stats));
      st_metric "Role Frequency" (metric_int (demand_count stats));
      st_metric "Salary Range"
        (metric_range (min_salary stats) (max_salary stats));
      st_plotly_chart (histogram (map salary_lpa (career_data salary_df title)))
    ])%list).
Proof.
  intros Hclick Htop Hstats.
  unfold career_analysis, bind, render, lift, global.
  rewrite Hclick, Htop, Hstats. cbn.
  now rewrite <- !app_assoc.
Qed.

(** The pages that never touch [model] complete whatever the key. *)
Lemma other_pages_complete (key : option string) (csv : list csv_row)
    (w : widgets) :
  menu w <> CareerAnalysis ->
  fst (app generate_content key csv w []) = Ok tt.
Proof.
  intros Hmenu. unfold app, bind.
  destruct (configure key []) as [[model|e] page] eqn:Hc.
  - unfold render at 1. cbn.
    destruct (menu w); [reflexivity | contradiction | | reflexivity].
    unfold compare_careers, bind, render. cbn.
    destruct (compare w); [|reflexivity].
    now destruct (compare_averages (load_data csv) (career1 w) (career2 w)).
  - unfold configure in Hc. destruct (truthy key); discriminate Hc.
Qed.

End Runs.

End CredentialFacts.

(** C4, at the failing run. With no usable key, a table with at least one
    row and the analysis button pressed, one run of the script renders the
    notice, the recommendation, the three metrics and the chart, and then
    ends with the uncaught NameError for [model]: the explanation is not
    switched off, it is attempted on a name that was never bound. *)
Theorem C4_missing_key_ends_in_NameError
    (generate_content : model_handle -> prompt -> result string)
    (key : option string) (csv : list csv_row) (w : widgets) :
  truthy key = false ->
  csv <> [] ->
  menu w = CareerAnalysis ->
  analyze_now w = true ->
  exists title stats,
    recommend (split_strip_lower (skills_input w))
              (split_strip_lower (interests_input w)) (load_data csv) = Ok title
    /\ career_stats (load_data csv) title = Ok stats
    /\ app generate_content key csv w [] =
       (Raise (NameError "model"),
        [ st_error "Gemini API Key not configured.";
          st_sidebar_title "CareerSense AI";
          st_header "Analyze Your Career Path";
          st_success ("Recommended Career: " ++ title);
          st_metric "Avg Salary (LPA)" (metric_float (avg_salary stats));
          st_metric "Role Frequency" (metric_int (demand_count stats));
          st_metric "Salary Range"
            (metric_range (min_salary stats) (max_salary stats));
          st_plotly_chart
            (histogram (map salary_lpa (career_data (load_data csv) title))) ]).
Proof.
  intros Hkey Hcsv Hmenu Hclick.
  destruct csv as [|line csv]; [contradiction|].
  rewrite AggregatorFacts.load_data_cons in *.
  set (salary_df := _ :: load_data csv).
  destruct (ScorerFacts.recommend_some
              (split_strip_lower (skills_input w))
              (split_strip_lower (interests_input w))
              {| job_title := strip (csv_job_title line);
                 salary_in_usd := csv_salary_in_usd line;
                 salary_lpa := (csv_salary_in_usd line * 83 / 100000)%Q |}
              (load_data csv)) as [title [Htop Hin]].
  fold salary_df in Htop, Hin.
  pose proof (AggregatorFacts.career_data_present _ _ Hin) as Hne.
  pose proof (AggregatorFacts.career_stats_eq salary_df title) as Hstats.
  cbv zeta in Hstats.
  destruct (career_data salary_df title) as [|r rows] eqn:Hdata;
    [contradiction|].
  eexists. eexists. split; [exact Htop|]. split; [exact Hstats|].
  unfold app, bind.
  rewrite (CredentialFacts.configure_without_key key [] Hkey).
  unfold render at 1. rewrite Hmenu.
  change (load_data (line :: csv)) with salary_df.
  rewrite (CredentialFacts.career_analysis_without_model
             generate_content salary_df w _ title _ Hclick Htop Hstats).
  now rewrite Hdata.
Qed.

Lemma C4_witness :
  app Example.answering None Example.csv (Example.analyze "data" "") [] =
  (Raise (NameError "model"),
   [ st_error "Gemini API Key not configured.";
     st_sidebar_title "CareerSense AI";
     st_header "Analyze Your Career Path";
     st_success "Recommended Career: Data Scientist";
     st_metric "Avg Salary (LPA)" (metric_float (Pandas.Num 150));
     st_metric "Role Frequency" (metric_int 2);
     st_metric "Salary Range"
       (metric_range (Pandas.Num 100) (Pandas.Num 200));
     st_plotly_chart
       (histogram (map salary_lpa
                     (career_data (load_data Example.csv) "Data Scientist"))) ]).
Proof.
  destruct (C4_missing_key_ends_in_NameError
              Example.answering None Example.csv (Example.analyze "data" ""))
    as [title [stats [Htop [Hstats Hrun]]]];
    [reflexivity | discriminate | reflexivity | reflexivity |].
  assert (Ht : title = "Data Scientist").
  { vm_compute in Htop. now inversion Htop. }
  subst title.
  assert (Hs : stats = {| avg_salary := Pandas.Num 150;
                          min_salary := Pandas.Num 100;
                          max_salary := Pandas.Num 200;
                          demand_count := 2 |}).
  { vm_compute in Hstats. now inversion Hstats. }
  subst stats. exact Hrun.
Defined.

(** With the key in place and the service answering, the same run
    completes and shows the explanation. *)
Example analysis_with_key :
  app Example.answering (Some "key") Example.csv (Example.analyze "data" "") [] =
  (Ok tt,
   [ st_sidebar_title "CareerSense AI";
     st_header "Analyze Your Career Path";
     st_success "Recommended Career: Data Scientist";
     st_metric "Avg Salary (LPA)" (metric_float (Pandas.Num 150));
     st_metric "Role Frequency" (metric_int 2);
     st_metric "Salary Range"
       (metric_range (Pandas.Num 100) (Pandas.Num 200));
     st_plotly_chart
       (histogram (map salary_lpa
                     (career_data (load_data Example.csv) "Data Scientist")));
     st_info "A good match." ]).
Proof. reflexivity. Qed.

(** * Part III: further properties of the script *)

(** ** Parsing the two text fields and cleaning the titles *)

Module ParseFacts.


Lemma lower_char_idem (c : ascii) : lower_char (lower_char c) = lower_char c.
Proof. destruct c as [[] [] [] [] [] [] [] []]; reflexivity. Qed.

Lemma lower_idem (s : string) : lower (lower s) = lower s.
Proof.
  induction s as [|c s IH]; cbn; [reflexivity|].
  now rewrite lower_char_idem, IH.
Qed.


Lemma rstrip_cons_keep (c : ascii) (s : string) :
  is_space c = false -> rstrip (String c s) = String c (rstrip s).
Proof.
  intros Hc. cbn [rstrip]. destruct (rstrip s); [now rewrite Hc | reflexivity].
Qed.

Lemma rstrip_idem (s : string) : rstrip (rstrip s) = rstrip s.
Proof.
  induction s as [|c s IH]; [reflexivity|].
  cbn [rstrip]. destruct (rstrip s) as [|d r] eqn:Hr.
  - destruct (is_space c) eqn:Hc; [reflexivity|].
    cbn [rstrip]. now rewrite Hc.
  - cbn [rstrip]. cbn [rstrip] in IH. now rewrite IH.
Qed.

Lemma lstrip_head (s : string) (c : ascii) (rest : string) :
  lstrip s = String c rest -> is_space c = false.
Proof.
  induction s as [|d s IH]; cbn [lstrip]; [discriminate|].
  destruct (is_space d) eqn:Hd; [exact IH|].
  intros Heq. inversion Heq; now subst.
Qed.

Lemma strip_head (s : string) (c : ascii) (rest : string) :
  strip s = String c rest -> is_space c = false.
Proof.
  unfold strip. destruct (lstrip s) as [|d t] eqn:Hl; [discriminate|].
  pose proof (lstrip_head _ _ _ Hl) as Hd.
  rewrite rstrip_cons_keep by exact Hd.
  intros Heq. inversion Heq; now subst.
Qed.

Lemma rstrip_last (s pre : string) (c : ascii) :
  rstrip s = pre ++ String c EmptyString -> is_space c = false.
Proof.
  revert pre. induction s as [|a s IH]; intros pre; cbn [rstrip].
  - destruct pre; discriminate.
  - destruct (rstrip s) as [|d r] eqn:Hr.
    + destruct (is_space a) eqn:Ha.
      * destruct pre; discriminate.
      * destruct pre as [|b pre]; cbn; intros Heq; inversion Heq; subst.
        -- exact Ha.
        -- destruct pre; discriminate.
    + destruct pre as [|b pre]; cbn; intros Heq; inversion Heq; subst.
      now apply (IH pre).
Qed.

Lemma lstrip_split (s : string) :
  exists pre,
    s = pre ++ lstrip s /\
    Forall (fun c => is_space c = true) (list_ascii_of_string pre).
Proof.
  induction s as [|c s [pre [Heq Hpre]]].
  - exists EmptyString. split; [reflexivity | constructor].
  - cbn [lstrip]. destruct (is_space c) eqn:Hc.
    + exists (String c pre). split; [cbn; now rewrite <- Heq|].
      cbn. now constructor.
    + exists EmptyString. split; [reflexivity | constructor].
Qed.

Lemma rstrip_split (s : string) :
  exists post,
    s = rstrip s ++ post /\
    Forall (fun c => is_space c = true) (list_ascii_of_string post).
Proof.
  induction s as [|c s [post [Heq Hpost]]].
  - exists EmptyString. split; [reflexivity | constructor].
  - cbn [rstrip]. destruct (rstrip s) as [|d r] eqn:Hr.
    + cbn in Heq. subst post. destruct (is_space c) eqn:Hc.
      * exists (String c s). split; [reflexivity|]. cbn. now constructor.
      * exists s. split; [reflexivity | exact Hpost].
    + exists post. split; [cbn; f_equal; exact Heq | exact Hpost].
Qed.

Lemma strip_idem (s : string) : strip (strip s) = strip s.
Proof.
  unfold strip. destruct (lstrip s) as [|c t] eqn:Hl; [reflexivity|].
  pose proof (lstrip_head _ _ _ Hl) as Hc.
  rewrite rstrip_cons_keep by exact Hc.
  cbn [lstrip]. rewrite Hc.
  rewrite rstrip_cons_keep by exact Hc. now rewrite rstrip_idem.
Qed.

(** A string of white space only strips to nothing. *)
Lemma strip_blank (s : string) :
  Forall (fun c => is_space c = true) (list_ascii_of_string s) ->
  strip s = EmptyString.
Proof.
  intros Hall. unfold strip.
  assert (Hl : lstrip s = EmptyString).
  { induction s as [|c s IH]; [reflexivity|].
    cbn in Hall. inversion Hall as [|? ? Hc Hs]; subst.
    cbn [lstrip]. rewrite Hc. now apply IH. }
  now rewrite Hl.
Qed.

Lemma strip_empty_blank (s : string) :
  strip s = EmptyString ->
  Forall (fun c => is_space c = true) (list_ascii_of_string s).
Proof.
  intros Hs. destruct (lstrip_split s) as [pre [Heq Hpre]].
  destruct (rstrip_split (lstrip s)) as [post [Heq' Hpost]].
  unfold strip in Hs. rewrite Hs in Heq'. cbn in Heq'.
  rewrite Heq' in Heq. rewrite Heq.
  clear - Hpre Hpost. induction pre as [|c pre IH]; cbn; [exact Hpost|].
  cbn in Hpre. inversion Hpre; subst. constructor; [assumption | now apply IH].
Qed.

Lemma split_comma_no_comma (s : string) :
  ~ In ","%char (list_ascii_of_string s) -> split_comma s = [s].
Proof.
  induction s as [|c s IH]; [reflexivity|].
  cbn. intros Hno. destruct (Ascii.eqb_spec c ","%char) as [->|Hc].
  - exfalso. apply Hno. now left.
  - rewrite IH; [reflexivity|]. intros Hin. apply Hno. now right.
Qed.

(** A blank field parses to the one empty word. *)
Lemma split_strip_lower_blank (input : string) :
  strip input = EmptyString -> split_strip_lower input = [EmptyString].
Proof.
  intros Hblank. unfold split_strip_lower.
  rewrite split_comma_no_comma; [cbn; now rewrite Hblank|].
  intros Hin. pose proof (strip_empty_blank _ Hblank) as Hall.
  rewrite Forall_forall in Hall. specialize (Hall _ Hin). discriminate Hall.
Qed.

Lemma concat_split_comma (s : string) :
  String.concat "," (split_comma s) = s.
Proof.
  induction s as [|c s IH]; [reflexivity|].
  cbn [split_comma]. pose proof (PyStrFacts.split_comma_not_nil s) as Hne.
  destruct (split_comma s) as [|field fields]; [contradiction|].
  destruct (Ascii.eqb_spec c ","%char) as [->|Hc].
  - cbn [String.concat]. cbn [String.concat] in IH. rewrite IH. reflexivity.
  - cbn [String.concat] in *. destruct fields; cbn; now rewrite <- IH.
Qed.

Lemma split_comma_fields (s field : string) :
  In field (split_comma s) -> ~ In ","%char (list_ascii_of_string field).
Proof.
  revert field. induction s as [|c s IH]; intros field.
  - cbn. intros [<-|[]] [].
  - cbn [split_comma]. destruct (Ascii.eqb_spec c ","%char) as [->|Hc].
    + intros [<-|Hin]; [intros [] | now apply IH].
    + pose proof (PyStrFacts.split_comma_not_nil s) as Hne.
      destruct (split_comma s) as [|f fields]; [contradiction|].
      intros [<-|Hin].
      * cbn. intros [Heq|Hin]; [now apply Hc|].
        apply (IH f); [now left | exact Hin].
      * apply IH. now right.
Qed.

End ParseFacts.

(** ** Rounding and the three statistics *)

Module RoundFacts.









End RoundFacts.

(** ** Whole runs of the script *)

Module RunFacts.

Lemma recommend_in (user_skills user_interests : list string)
    (salary_df : DataFrame) (title : string) :
  recommend user_skills user_interests salary_df = Ok title ->
  In title (map job_title salary_df).
Proof.
  destruct salary_df as [|r salary_df]; [discriminate|].
  destruct (ScorerFacts.recommend_some user_skills user_interests r salary_df)
    as [t [Ht Hin]].
  rewrite Ht. intros Heq. inversion Heq. now subst.
Qed.

Lemma career_stats_present (salary_df : DataFrame) (title : string) :
  In title (map job_title salary_df) ->
  exists stats,
    career_stats salary_df title = Ok stats /\ 1 <= demand_count stats.
Proof.
  intros Hin. pose proof (AggregatorFacts.career_data_present _ _ Hin) as Hne.
  rewrite AggregatorFacts.career_stats_eq. cbv zeta.
  destruct (career_data salary_df title) as [|r rows]; [contradiction|].
  eexists. split; [reflexivity|]. cbn [demand_count List.length]. lia.
Qed.

Section Runs.
Variable generate_content : model_handle -> prompt -> result string.

Local Abbreviation shown salary_df title stats :=
  [ st_header "Analyze Your Career Path";
    st_success ("Recommended Career: " ++ title);
    st_metric "Avg Salary (LPA)" (metric_float (avg_salary stats));
    st_metric "Role Frequency" (metric_int (demand_count stats));
    st_metric "Salary Range"
      (metric_range (min_salary stats) (max_salary stats));
    st_plotly_chart (histogram (map salary_lpa (career_data salary_df title))) ].


Lemma configure_run (key : option string) :
  configure key [] =
  if truthy key then (Ok (Some (GenerativeModel "gemini-1.5-flash")), [])
  else (Ok None, [st_error "Gemini API Key not configured."]).
Proof. unfold configure. now destruct (truthy key). Qed.


Lemma app_empty_table (key : option string) (w : widgets) :
  menu w = CareerAnalysis -> analyze_now w = true ->
  app generate_content key [] w [] =
  (Raise IndexError,
   ((if truthy key then [] else [st_error "Gemini API Key not configured."]) ++
    [ st_sidebar_title "CareerSense AI";
      st_header "Analyze Your Career Path" ])%list).
Proof.
  intros Hmenu Hclick. unfold app, bind. rewrite configure_run.
  destruct (truthy key); unfold render at 1; rewrite Hmenu;
    unfold career_analysis, bind, render, lift; now rewrite Hclick.
Qed.


End Runs.

End RunFacts.

(** ** More on the scorer *)

Module RankingFacts.

Lemma filter_length_perm {A : Type} (p : A -> bool) (l l' : list A) :
  Permutation l l' -> List.length (filter p l) = List.length (filter p l').
Proof.
  induction 1 as [|x l l' _ IH|x y l|l l' l'' _ IH1 _ IH2]; cbn [filter].
  - reflexivity.
  - destruct (p x); cbn [List.length]; now rewrite IH.
  - destruct (p x), (p y); reflexivity.
  - now rewrite IH1.
Qed.

Lemma title_score_perm (skills skills' interests interests' : list string)
    (title : string) :
  Permutation skills skills' -> Permutation interests interests' ->
  title_score skills interests title = title_score skills' interests' title.
Proof.
  intros Hs Hi. rewrite !ScorerFacts.title_score_eq.
  unfold Spec.substring_matches.
  now rewrite (filter_length_perm _ _ _ Hs), (filter_length_perm _ _ _ Hi).
Qed.

Lemma keys_of_scores (user_skills user_interests : list string)
    (salary_df : DataFrame) :
  map fst (career_scores user_skills user_interests salary_df) =
  Pandas.unique (map job_title salary_df).
Proof.
  rewrite ScorerFacts.career_scores_eq, map_map. cbn [fst]. apply map_id.
Qed.

Lemma title_score_blank (title : string) :
  title_score [EmptyString] [EmptyString] title = 3.
Proof.
  rewrite ScorerFacts.title_score_eq. unfold Spec.substring_matches.
  cbn [filter]. now rewrite PyStrFacts.contains_empty.
Qed.

Lemma substring_matches_le (words : list string) (title : string) :
  Spec.substring_matches words title <= Z.of_nat (List.length words).
Proof.
  unfold Spec.substring_matches. apply Nat2Z.inj_le, filter_length_le.
Qed.

End RankingFacts.

(** X1. The ranked list of line 99 is the dictionary's items rearranged,
    in descending order of score, and pairs of equal score keep the order
    they have in the dictionary. *)
Theorem X1_ranking_is_stable_descending_permutation (scores : dict Z) :
  Permutation (items scores) (sorted_careers scores)
  /\ StronglySorted (fun a b => snd b <= snd a) (sorted_careers scores)
  /\ forall k,
       filter (fun entry => snd entry =? k) (sorted_careers scores) =
       filter (fun entry => snd entry =? k) (items scores).
Proof.
  unfold sorted_careers. split; [|split].
  - apply SortedFacts.sorted_perm.
  - apply (SortedFacts.sorted_reverse_descending snd).
  - intros k. apply (SortedFacts.sorted_stable snd).
Qed.

(** X2. The ranked list names every title of the table, each exactly
    once, and nothing else. *)
Theorem X2_ranking_names_each_title_once
    (user_skills user_interests : list string) (salary_df : DataFrame) :
  let ranking := sorted_careers (career_scores user_skills user_interests salary_df) in
  NoDup (map fst ranking)
  /\ (forall title, In title (map fst ranking) <-> In title (map job_title salary_df))
  /\ List.length ranking = List.length (Pandas.unique (map job_title salary_df)).
Proof.
  cbv zeta.
  pose proof (SortedFacts.sorted_perm snd true
                (items (career_scores user_skills user_interests salary_df)))
    as Hperm.
  fold (sorted_careers (career_scores user_skills user_interests salary_df))
    in Hperm.
  unfold items in Hperm.
  pose proof (Permutation_map fst Hperm) as Hkeys.
  rewrite RankingFacts.keys_of_scores in Hkeys.
  split; [|split].
  - eapply Permutation_NoDup; [exact Hkeys | apply PandasFacts.unique_nodup].
  - intros title. rewrite <- (PandasFacts.unique_in (map job_title salary_df)).
    split; intros Hin.
    + eapply Permutation_in; [symmetry; exact Hkeys | exact Hin].
    + eapply Permutation_in; [exact Hkeys | exact Hin].
  - rewrite <- (Permutation_length Hperm), ScorerFacts.career_scores_eq.
    apply length_map.
Qed.

(** X3. The recommended title has the largest score of the table, and it
    is the first such title: every title that first appears before it
    scores strictly less. *)
Theorem X3_recommendation_is_first_of_largest_score
    (user_skills user_interests : list string) (salary_df : DataFrame)
    (title : string) :
  recommend user_skills user_interests salary_df = Ok title ->
  (forall other, In other (map job_title salary_df) ->
     title_score user_skills user_interests other <=
     title_score user_skills user_interests title)
  /\ exists before after,
       Pandas.unique (map job_title salary_df) = (before ++ title :: after)%list
       /\ Forall (fun other =>
                    title_score user_skills user_interests other <
                    title_score user_skills user_interests title) before.
Proof.
  intros Htop. unfold recommend in Htop.
  apply ScorerFacts.top_career_first_maximum in Htop
    as [before [score [after [Heq [Hbefore Hafter]]]]].
  rewrite ScorerFacts.career_scores_eq in Heq.
  apply map_eq_app in Heq as [l1 [l2 [Hu [H1 H2]]]].
  apply map_eq_cons in H2 as [t [l3 [Hl2 [Ht H3]]]].
  inversion Ht; subst. clear Ht.
  rewrite Forall_map in Hbefore, Hafter. cbn [snd] in Hbefore, Hafter.
  split.
  - intros other Hin. apply PandasFacts.unique_in in Hin. rewrite Hu in Hin.
    rewrite Forall_forall in Hbefore, Hafter.
    apply in_app_or in Hin as [Hin|[<-|Hin]].
    + specialize (Hbefore _ Hin). lia.
    + lia.
    + now apply Hafter.
  - now exists l1, l3.
Qed.

Lemma X3_witness :
  (forall other, In other (map job_title Example.salary_df) ->
     title_score ["engineer"] [] other <=
     title_score ["engineer"] [] "Backend Engineer")
  /\ exists before after,
       Pandas.unique (map job_title Example.salary_df) =
         (before ++ "Backend Engineer" :: after)%list
       /\ Forall (fun other =>
                    title_score ["engineer"] [] other <
                    title_score ["engineer"] [] "Backend Engineer") before.
Proof.
  apply (X3_recommendation_is_first_of_largest_score
           ["engineer"] [] Example.salary_df "Backend Engineer").
  reflexivity.
Defined.

(** X4. The order in which the skills and the interests are typed does
    not matter: rearranged lists give the same scores and the same
    recommendation. *)
Theorem X4_order_of_words_is_irrelevant
    (skills skills' interests interests' : list string) (salary_df : DataFrame) :
  Permutation skills skills' -> Permutation interests interests' ->
  career_scores skills interests salary_df =
    career_scores skills' interests' salary_df
  /\ recommend skills interests salary_df =
     recommend skills' interests' salary_df.
Proof.
  intros Hs Hi.
  assert (Heq : career_scores skills interests salary_df =
                career_scores skills' interests' salary_df).
  { rewrite !ScorerFacts.career_scores_eq. apply map_ext. intros title.
    now rewrite (RankingFacts.title_score_perm _ _ _ _ title Hs Hi). }
  split; [exact Heq|]. unfold recommend. now rewrite Heq.
Qed.

Lemma X4_witness :
  career_scores ["data"; "engineer"] ["back"; "end"] Example.salary_df =
    career_scores ["engineer"; "data"] ["end"; "back"] Example.salary_df
  /\ recommend ["data"; "engineer"] ["back"; "end"] Example.salary_df =
     recommend ["engineer"; "data"] ["end"; "back"] Example.salary_df.
Proof.
  apply (X4_order_of_words_is_irrelevant
           ["data"; "engineer"] ["engineer"; "data"]
           ["back"; "end"] ["end"; "back"] Example.salary_df);
    apply perm_swap.
Defined.



(** X6. A score is at most 2 per skill plus 1 per interest. *)
Theorem X6_score_upper_bound
    (user_skills user_interests : list string) (title : string) :
  title_score user_skills user_interests title <=
  2 * Z.of_nat (List.length user_skills) + Z.of_nat (List.length user_interests).
Proof.
  rewrite ScorerFacts.title_score_eq.
  pose proof (RankingFacts.substring_matches_le user_skills title).
  pose proof (RankingFacts.substring_matches_le user_interests title).
  lia.
Qed.

(** X7. Two blank fields, as when the button is pressed with nothing
    typed, give every title the score 3, and the recommendation is the
    title of the first row; with no rows it fails with IndexError. *)
Theorem X7_blank_fields_recommend_first_row
    (skills_input interests_input : string) (salary_df : DataFrame) :
  strip skills_input = EmptyString ->
  strip interests_input = EmptyString ->
  career_scores (split_strip_lower skills_input)
                (split_strip_lower interests_input) salary_df =
    map (fun title => (title, 3)) (Pandas.unique (map job_title salary_df))
  /\ recommend (split_strip_lower skills_input)
               (split_strip_lower interests_input) salary_df =
     match salary_df with
     | [] => Raise IndexError
     | r :: _ => Ok (job_title r)
     end.
Proof.
  intros Hs Hi.
  rewrite (ParseFacts.split_strip_lower_blank _ Hs),
          (ParseFacts.split_strip_lower_blank _ Hi).
  assert (Heq : career_scores [EmptyString] [EmptyString] salary_df =
                map (fun title => (title, 3))
                    (Pandas.unique (map job_title salary_df))).
  { rewrite ScorerFacts.career_scores_eq. apply map_ext.
    intros title. now rewrite RankingFacts.title_score_blank. }
  split; [exact Heq|].
  unfold recommend. rewrite Heq, ScorerFacts.top_career_scan.
  destruct salary_df as [|r salary_df]; [reflexivity|].
  cbn [map]. rewrite PandasFacts.unique_cons. cbn [map].
  rewrite ScorerFacts.scan_stays; [reflexivity|].
  intros entry Hin. apply in_map_iff in Hin as [t [<- _]]. cbn. lia.
Qed.

Lemma X7_witness :
  career_scores (split_strip_lower "  ") (split_strip_lower "") Example.salary_df =
    [("Data Scientist", 3); ("Backend Engineer", 3)]
  /\ recommend (split_strip_lower "  ") (split_strip_lower "") Example.salary_df =
     Ok "Data Scientist".
Proof.
  apply (X7_blank_fields_recommend_first_row "  " "" Example.salary_df);
    reflexivity.
Defined.

(** ** More on parsing, loading and aggregating *)

Module LoaderFacts.

Lemma loaded_salaries (csv : list csv_row) (title : string) :
  map salary_in_usd (career_data (load_data csv) title) =
  map csv_salary_in_usd
      (filter (fun line => String.eqb (strip (csv_job_title line)) title) csv).
Proof.
  induction csv as [|line csv IH]; [reflexivity|].
  rewrite AggregatorFacts.load_data_cons. unfold career_data in *.
  cbn [filter job_title].
  destruct (String.eqb (strip (csv_job_title line)) title); cbn [map];
    now rewrite IH.
Qed.

Lemma loaded_titles_stripped (csv : list csv_row) :
  Forall (fun r => strip (job_title r) = job_title r) (load_data csv).
Proof.
  induction csv as [|line csv IH]; [constructor|].
  rewrite AggregatorFacts.load_data_cons. constructor; [|exact IH].
  cbn [job_title]. apply ParseFacts.strip_idem.
Qed.

Lemma mean_present (salary_df : DataFrame) (title : string) :
  In title (map job_title salary_df) ->
  exists m, Pandas.mean (map salary_lpa (career_data salary_df title)) =
            Pandas.Num m.
Proof.
  intros Hin. pose proof (AggregatorFacts.career_data_present _ _ Hin) as Hne.
  destruct (career_data salary_df title); [contradiction|].
  eexists. reflexivity.
Qed.

Lemma rounded_average_nan_iff (salary_df : DataFrame) (title : string) :
  Pandas.round (Pandas.mean (map salary_lpa (career_data salary_df title))) 2 =
    Pandas.NaN
  <-> ~ In title (map job_title salary_df).
Proof.
  split.
  - intros Hnan Hin. destruct (mean_present _ _ Hin) as [m Hm].
    rewrite Hm in Hnan. discriminate Hnan.
  - intros Habsent. now rewrite (AggregatorFacts.career_data_absent _ _ Habsent).
Qed.

End LoaderFacts.

(** X8. Splitting at the commas loses nothing: gluing the fields back
    together with commas gives the input again, there is always at least
    one field, and no field contains a comma. *)
Theorem X8_split_comma_round_trip (input : string) :
  String.concat "," (split_comma input) = input
  /\ split_comma input <> []
  /\ Forall (fun field => ~ In ","%char (list_ascii_of_string field))
            (split_comma input).
Proof.
  split; [apply ParseFacts.concat_split_comma|].
  split; [apply PyStrFacts.split_comma_not_nil|].
  apply Forall_forall. intros field. apply ParseFacts.split_comma_fields.
Qed.

(** X9. Stripping removes white space at the two ends and nothing else:
    the string is white space, then the stripped string, then white
    space; the stripped string neither starts nor ends with white space;
    stripping again changes nothing. *)
Theorem X9_strip_removes_outer_white_space (s : string) :
  (exists pre post,
     s = pre ++ strip s ++ post /\
     Forall (fun c => is_space c = true) (list_ascii_of_string pre) /\
     Forall (fun c => is_space c = true) (list_ascii_of_string post))
  /\ (forall c rest, strip s = String c rest -> is_space c = false)
  /\ (forall front c, strip s = front ++ String c EmptyString -> is_space c = false)
  /\ strip (strip s) = strip s.
Proof.
  split; [|split; [|split]].
  - destruct (ParseFacts.lstrip_split s) as [pre [Hpre Hws]].
    destruct (ParseFacts.rstrip_split (lstrip s)) as [post [Hpost Hws']].
    exists pre, post. split; [|split; assumption].
    unfold strip. now rewrite <- Hpost.
  - apply ParseFacts.strip_head.
  - intros front c. unfold strip. apply ParseFacts.rstrip_last.
  - apply ParseFacts.strip_idem.
Qed.

(** X10. After loading, no title has white space at its ends, and the
    rows found under a title are exactly the lines of the file whose
    title, stripped, is that title: their salaries come out in the order
    of the file. *)
Theorem X10_loaded_titles_are_stripped (csv : list csv_row) (title : string) :
  Forall (fun r => strip (job_title r) = job_title r) (load_data csv)
  /\ map salary_in_usd (career_data (load_data csv) title) =
     map csv_salary_in_usd
         (filter (fun line => String.eqb (strip (csv_job_title line)) title) csv).
Proof.
  split; [apply LoaderFacts.loaded_titles_stripped|].
  apply LoaderFacts.loaded_salaries.
Qed.

(** X11. The title that the scorer recommends always aggregates: its
    count lookup finds at least one row, so the KeyError of that lookup
    cannot follow a recommendation. *)
Theorem X11_recommended_title_aggregates
    (user_skills user_interests : list string) (salary_df : DataFrame)
    (title : string) :
  recommend user_skills user_interests salary_df = Ok title ->
  exists stats,
    career_stats salary_df title = Ok stats /\ 1 <= demand_count stats.
Proof.
  intros Htop. apply RunFacts.career_stats_present.
  now apply (RunFacts.recommend_in user_skills user_interests).
Qed.

Lemma X11_witness :
  exists stats,
    career_stats Example.salary_df "Data Scientist" = Ok stats /\
    1 <= demand_count stats.
Proof.
  apply (X11_recommended_title_aggregates ["data"] [] Example.salary_df
           "Data Scientist").
  reflexivity.
Defined.





(** X14. On the comparison page an average is NaN exactly when its title
    is not in the table; for the titles that the select boxes offer, both
    averages are numbers. *)
Theorem X14_compared_average_is_NaN_iff_title_absent
    (salary_df : DataFrame) (career1 career2 : string) :
  (fst (compare_averages salary_df career1 career2) = Pandas.NaN
   <-> ~ In career1 (map job_title salary_df))
  /\ (snd (compare_averages salary_df career1 career2) = Pandas.NaN
      <-> ~ In career2 (map job_title salary_df)).
Proof.
  unfold compare_averages. cbn [fst snd].
  split; apply LoaderFacts.rounded_average_nan_iff.
Qed.

(** ** More on whole runs *)



(** X16. With a file without rows, pressing the analysis button ends the
    run with IndexError right after the header: no recommendation, no
    metric and no chart is shown, with or without the key. *)
Theorem X16_analysis_of_empty_table_raises_IndexError
    (generate_content : model_handle -> prompt -> result string)
    (key : option string) (w : widgets) :
  menu w = CareerAnalysis -> analyze_now w = true ->
  app generate_content key [] w [] =
  (Raise IndexError,
   ((if truthy key then [] else [st_error "Gemini API Key not configured."]) ++
    [ st_sidebar_title "CareerSense AI";
      st_header "Analyze Your Career Path" ])%list).
Proof. apply RunFacts.app_empty_table. Qed.

Lemma X16_witness :
  app Example.answering (Some "key") [] (Example.analyze "data" "") [] =
  (Raise IndexError,
   [ st_sidebar_title "CareerSense AI"; st_header "Analyze Your Career Path" ]).
Proof.
  apply (X16_analysis_of_empty_table_raises_IndexError
           Example.answering (Some "key") (Example.analyze "data" ""));
    reflexivity.
Defined.





(** ** The parsed words are in normal form *)

Module NormalFacts.

Lemma is_space_lower_char (c : ascii) : is_space (lower_char c) = is_space c.
Proof. destruct c as [[] [] [] [] [] [] [] []]; reflexivity. Qed.

Lemma lstrip_lower (s : string) : lstrip (lower s) = lower (lstrip s).
Proof.
  induction s as [|c s IH]; [reflexivity|].
  cbn [lower lstrip]. rewrite is_space_lower_char.
  destruct (is_space c); [exact IH | reflexivity].
Qed.

Lemma rstrip_lower (s : string) : rstrip (lower s) = lower (rstrip s).
Proof.
  induction s as [|c s IH]; [reflexivity|].
  cbn [lower rstrip]. rewrite IH, is_space_lower_char.
  destruct (rstrip s); cbn [lower]; [|reflexivity].
  destruct (is_space c); reflexivity.
Qed.

Lemma strip_lower (s : string) : strip (lower s) = lower (strip s).
Proof. unfold strip. now rewrite lstrip_lower, rstrip_lower. Qed.

End NormalFacts.

(** X19. Every word that the script takes from a text field is in normal
    form: lowering it or stripping it again changes nothing, it carries
    no comma, and there is at least one word. *)
Theorem X19_parsed_words_are_normal (input word : string) :
  In word (split_strip_lower input) ->
  lower word = word
  /\ strip word = word
  /\ ~ In ","%char (list_ascii_of_string word)
  /\ split_strip_lower input <> [].
Proof.
  unfold split_strip_lower. intros Hin.
  apply in_map_iff in Hin as [field [<- Hfield]].
  split; [apply ParseFacts.lower_idem|].
  split; [now rewrite NormalFacts.strip_lower, ParseFacts.strip_idem|].
  split.
  - pose proof (ParseFacts.split_comma_fields _ _ Hfield) as Hno.
    destruct (ParseFacts.lstrip_split field) as [pre [Hpre _]].
    destruct (ParseFacts.rstrip_split (lstrip field)) as [post [Hpost _]].
    fold (strip field) in Hpost.
    intros Hcomma. apply Hno. rewrite Hpre, Hpost.
    assert (Hlow : forall s, In ","%char (list_ascii_of_string (lower s)) ->
                             In ","%char (list_ascii_of_string s)).
    { induction s as [|c s IH]; cbn; [tauto|].
      intros [Hc|Hs]; [left | right; now apply IH].
      destruct c as [[] [] [] [] [] [] [] []]; vm_compute in Hc;
        first [discriminate Hc | reflexivity]. }
    apply Hlow in Hcomma.
    assert (Happ : forall a b, list_ascii_of_string (a ++ b) =
                               (list_ascii_of_string a ++ list_ascii_of_string b)%list).
    { induction a as [|c a IH]; intros b; cbn; [reflexivity | now rewrite IH]. }
    rewrite !Happ, !in_app_iff. tauto.
  - intros Hnil. apply map_eq_nil in Hnil.
    now apply (PyStrFacts.split_comma_not_nil input).
Qed.

Lemma X19_witness :
  lower "sql" = "sql"
  /\ strip "sql" = "sql"
  /\ ~ In ","%char (list_ascii_of_string "sql")
  /\ split_strip_lower " Python ,  SQL" <> [].
Proof.
  apply (X19_parsed_words_are_normal " Python ,  SQL" "sql").
  right. now left.
Defined.
